(** * backend/app/main.py: process bootstrap, middleware assembly and
      health / metrics endpoints

    A shallow embedding of [src/backend/app/main.py].  The module talks to
    many collaborators that live elsewhere (the database layer, the tracing
    service, the enterprise service manager, psutil, the clock, the file
    system).  They are kept abstract: every call to one of them is an
    external operation whose behaviour is an arbitrary function of an
    abstract world.  A call may return, raise, or never complete.

    Effects of the module itself (the log, [app.state.start_time]) persist
    when an exception is raised, as they do in Python, so the monad is a
    state monad whose result is an outcome, not an outcome of a state. *)

From Stdlib Require Import List String Ascii ZArith QArith Qabs Bool Lia.
Import ListNotations.

Local Open Scope string_scope.
Local Open Scope list_scope.
Local Open Scope Z_scope.

Notation "a +++ b" := (String.append a b) (at level 60, right associativity).

(* ================================================================== *)
(** * Python values *)
(* ================================================================== *)

(** The values that flow through the handlers.  A [float] is represented by
    the rational it stands for, or is one of the two infinities; a [dict]
    keeps insertion order, as Python dictionaries do. *)
#[warnings="-register-all"]
Inductive value : Type :=
| VNone
| VBool (b : bool)
| VInt (z : Z)
| VFloat (q : Q)
| VInf (negative : bool)
| VStr (s : string)
| VList (l : list value)
| VDict (d : list (string * value)).

Definition dict : Type := list (string * value).

(** [bool(v)] *)
Definition truthy (v : value) : bool :=
  match v with
  | VNone => false
  | VBool b => b
  | VInt z => negb (z =? 0)
  | VFloat q => negb (Qeq_bool q 0)
  | VInf _ => true
  | VStr s => negb (String.eqb s "")
  | VList l => match l with [] => false | _ => true end
  | VDict d => match d with [] => false | _ => true end
  end.

(** [v == s] for a string literal [s] *)
Definition eq_str (v : value) (s : string) : bool :=
  match v with
  | VStr s' => String.eqb s' s
  | _ => false
  end.

(** [d.get(k)] *)
Fixpoint dict_get (k : string) (d : dict) : option value :=
  match d with
  | [] => None
  | (k', v) :: d' => if String.eqb k k' then Some v else dict_get k d'
  end.

(** [d[k] = v]: an existing key keeps its position, a new key goes last. *)
Fixpoint dict_set (k : string) (v : value) (d : dict) : dict :=
  match d with
  | [] => [(k, v)]
  | (k', v') :: d' =>
      if String.eqb k k' then (k, v) :: d' else (k', v') :: dict_set k v d'
  end.

(** [list(d.keys())] *)
Definition keys (d : dict) : list string := map fst d.

(* ================================================================== *)
(** * Exceptions and outcomes *)
(* ================================================================== *)

(** An instance of a subclass of [Exception]: its class name and [str(e)].
    Only such exceptions are modelled; [except Exception] catches them all. *)
Record exn : Type := PyError { exn_class : string; str : string }.

Definition AttributeError (type_name attr : string) : exn :=
  PyError "AttributeError"
          ("'" +++ type_name +++ "' object has no attribute '" +++ attr +++ "'").

(** [str(KeyError(k))] is the repr of the key. *)
Definition KeyError (k : string) : exn := PyError "KeyError" ("'" +++ k +++ "'").

Definition TypeError (msg : string) : exn := PyError "TypeError" msg.

Definition ZeroDivisionError : exn := PyError "ZeroDivisionError" "division by zero".

Definition OverflowError : exn :=
  PyError "OverflowError" "integer division result too large for a float".

(* ================================================================== *)
(** * Binary floating point *)
(* ================================================================== *)

(** The integer nearest to [q], ties to the even one. *)
Definition round_half_even (q : Q) : Z :=
  let n := Qnum q in
  let d := Z.pos (Qden q) in
  let fl := n / d in
  let r2 := 2 * (n mod d) in
  if r2 <? d then fl
  else if d <? r2 then fl + 1
  else if Z.even fl then fl else fl + 1.

(** The exponent [e] with [2^e <= |q| < 2^(e+1)], for [q] other than 0. *)
Definition binade (q : Q) : Z :=
  let n := Z.abs (Qnum q) in
  let d := Z.pos (Qden q) in
  let e := Z.log2 n - Z.log2 d in
  if Qle_bool (Qpower 2 e) (Qabs q) then e else e - 1.

(** [q] rounded to the nearest double (53 bits of precision, exponents
    from -1022 to 1023, gradual underflow), ties to even; [None] when the
    rounded value is beyond the largest double. *)
Definition round_float (q : Q) : option Q :=
  if Qeq_bool q 0 then Some 0%Q
  else
    let e := Z.max (binade q) (-1022) in
    let ulp := Qpower 2 (e - 52) in
    let r := Qred (inject_Z (round_half_even (q / ulp)) * ulp) in
    if Qle_bool (Qpower 2 1024) (Qabs r) then None else Some r.

(** The product of two floats: rounded, and infinite on overflow. *)
Definition float_mul (x y : Q) : value :=
  match round_float (x * y) with
  | Some r => VFloat r
  | None => VInf (negb (Qle_bool 0 (x * y)))
  end.

(** What running a piece of code can lead to.  [Hang] is an awaited
    operation that never completes. *)
Inductive outcome (A : Type) : Type :=
| Ok (a : A)
| Raise (e : exn)
| Hang.
Arguments Ok {A} a.
Arguments Raise {A} e.
Arguments Hang {A}.

(* ================================================================== *)
(** * External operations *)
(* ================================================================== *)

(** psutil's named tuples, restricted to the fields main.py reads. *)
Record svmem : Type := { vm_total : Z; vm_available : Z; vm_percent : Q }.
Record sdiskusage : Type := { du_total : Z; du_used : Z }.
Record pmem : Type := { rss : Z; vms : Z }.

(** Every call main.py makes into another module. *)
Inductive Op : Type :=
| tracing_service_initialize (with_app : bool)
| init_database_call
| initialize_all_services
| import_observability
| import_event_bus
| import_chaos_monkey
| observability_initialize
| event_bus_create_stream (name : string)
| chaos_monkey_create_default_experiments
| shutdown_all_services
| import_db_manager
| db_manager_cleanup
| db_manager_check_connection
| health_check_all_services
| psutil_cpu_percent
| psutil_virtual_memory
| psutil_disk_usage
| psutil_Process
| process_memory_info
| process_cpu_percent
| process_num_threads.

(** The type of what an operation returns. *)
Definition ret_type (op : Op) : Type :=
  match op with
  | db_manager_check_connection => value
  | health_check_all_services => value
  | psutil_cpu_percent => Q
  | psutil_virtual_memory => svmem
  | psutil_disk_usage => sdiskusage
  | process_memory_info => pmem
  | process_cpu_percent => Q
  | process_num_threads => Z
  | _ => unit
  end.

Definition Op_eqb (a b : Op) : bool :=
  match a, b with
  | tracing_service_initialize x, tracing_service_initialize y => Bool.eqb x y
  | init_database_call, init_database_call => true
  | initialize_all_services, initialize_all_services => true
  | import_observability, import_observability => true
  | import_event_bus, import_event_bus => true
  | import_chaos_monkey, import_chaos_monkey => true
  | observability_initialize, observability_initialize => true
  | event_bus_create_stream x, event_bus_create_stream y => String.eqb x y
  | chaos_monkey_create_default_experiments,
    chaos_monkey_create_default_experiments => true
  | shutdown_all_services, shutdown_all_services => true
  | import_db_manager, import_db_manager => true
  | db_manager_cleanup, db_manager_cleanup => true
  | db_manager_check_connection, db_manager_check_connection => true
  | health_check_all_services, health_check_all_services => true
  | psutil_cpu_percent, psutil_cpu_percent => true
  | psutil_virtual_memory, psutil_virtual_memory => true
  | psutil_disk_usage, psutil_disk_usage => true
  | psutil_Process, psutil_Process => true
  | process_memory_info, process_memory_info => true
  | process_cpu_percent, process_cpu_percent => true
  | process_num_threads, process_num_threads => true
  | _, _ => false
  end.

(** How a call ended, as recorded in the trace. *)
Inductive ending : Type :=
| Returned
| Raised (e : exn)
| Hung.

Definition ending_of {A : Type} (o : outcome A) : ending :=
  match o with
  | Ok _ => Returned
  | Raise e => Raised e
  | Hang => Hung
  end.

Inductive level : Type := INFO | WARNING | ERROR.

(** What the module did, in order: calls into collaborators and log lines. *)
Inductive event : Type :=
| Call (op : Op) (how : ending)
| Log (lvl : level) (msg : string).

Definition is_call (op : Op) (ev : event) : bool :=
  match ev with
  | Call op' _ => Op_eqb op op'
  | Log _ _ => false
  end.

(** Number of times [op] was invoked in a trace. *)
Definition calls (op : Op) (tr : list event) : nat :=
  List.length (filter (is_call op) tr).

(* ================================================================== *)
(** * Module-level state after import *)
(* ================================================================== *)

(** The flags set by the guarded imports at the top of main.py, and the
    attributes of the [settings] object ([None] for an attribute that the
    object does not have). *)
Record module_env : Type := {
  init_database : bool;         (* false: the import failed, the name is None *)
  TRACING_AVAILABLE : bool;
  ENTERPRISE_AVAILABLE : bool;
  settings : string -> option value
}.

(** [enterprise_service_manager] is an instance exactly when the import
    succeeded (lines 37-44); an instance is truthy. *)
Definition enterprise_service_manager (env : module_env) : option unit :=
  if ENTERPRISE_AVAILABLE env then Some tt else None.

Definition is_some {A : Type} (o : option A) : bool :=
  match o with Some _ => true | None => false end.

(* ================================================================== *)
(** * The effect monad *)
(* ================================================================== *)

Section Runtime.

(** The world outside main.py and how it answers. *)
Context {W : Type}.
Variable ext : forall op : Op, W -> outcome (ret_type op) * W.
Variable time_time : W -> Q * W.                (* time.time() *)
Variable utcnow_isoformat : W -> string * W.    (* datetime.utcnow().isoformat() *)
Variable env : module_env.

(** [app_start_time] is [app.state.start_time]; [None] while the attribute
    has not been set. *)
Record state : Type := {
  world : W;
  app_start_time : option Q;
  trace : list event
}.

Definition M (A : Type) : Type := state -> outcome A * state.

Definition ret {A : Type} (a : A) : M A := fun s => (Ok a, s).

Definition bind {A B : Type} (m : M A) (k : A -> M B) : M B :=
  fun s =>
    match m s with
    | (Ok a, s') => k a s'
    | (Raise e, s') => (Raise e, s')
    | (Hang, s') => (Hang, s')
    end.

Definition raise {A : Type} (e : exn) : M A := fun s => (Raise e, s).

(** [try: body  except Exception as e: handler]: what [body] did before
    raising stays done; an operation that never completes is not an
    exception. *)
Definition try_except {A : Type} (body : M A) (handler : exn -> M A) : M A :=
  fun s =>
    match body s with
    | (Raise e, s') => handler e s'
    | r => r
    end.

Definition emit (ev : event) (s : state) : state :=
  {| world := world s;
     app_start_time := app_start_time s;
     trace := trace s ++ [ev] |}.

(** A call into a collaborator: the world answers and the call is traced. *)
Definition call (op : Op) : M (ret_type op) :=
  fun s =>
    let (r, w) := ext op (world s) in
    (r, {| world := w;
           app_start_time := app_start_time s;
           trace := trace s ++ [Call op (ending_of r)] |}).

(** [logger.info], [logger.warning], [logger.error].  Log texts are given
    without the pictographs that decorate some of them in the source. *)
Definition logger (lvl : level) (msg : string) : M unit :=
  fun s => (Ok tt, emit (Log lvl msg) s).

Definition now : M Q :=
  fun s =>
    let (t, w) := time_time (world s) in
    (Ok t, {| world := w; app_start_time := app_start_time s; trace := trace s |}).

Definition utcnow : M string :=
  fun s =>
    let (t, w) := utcnow_isoformat (world s) in
    (Ok t, {| world := w; app_start_time := app_start_time s; trace := trace s |}).

(** [settings.NAME]; the class of the settings object is taken to be
    named [Settings]. *)
Definition settings_attr (name : string) : M value :=
  match settings env name with
  | Some v => ret v
  | None => raise (AttributeError "Settings" name)
  end.

(** [getattr(settings, NAME, default)] *)
Definition settings_getattr (name : string) (default : value) : value :=
  match settings env name with
  | Some v => v
  | None => default
  end.

(** [v[key]] for a string key *)
Definition subscript (v : value) (key : string) : M value :=
  match v with
  | VDict d =>
      match dict_get key d with
      | Some x => ret x
      | None => raise (KeyError key)
      end
  | VNone => raise (TypeError "'NoneType' object is not subscriptable")
  | VBool _ => raise (TypeError "'bool' object is not subscriptable")
  | VInt _ => raise (TypeError "'int' object is not subscriptable")
  | VFloat _ => raise (TypeError "'float' object is not subscriptable")
  | VInf _ => raise (TypeError "'float' object is not subscriptable")
  | VStr _ => raise (TypeError "string indices must be integers")
  | VList _ => raise (TypeError "list indices must be integers or slices, not str")
  end.

Notation "x <- m ;; k" := (bind m (fun x => k))
  (at level 100, m at next level, right associativity).
Notation "m ;; k" := (bind m (fun _ => k))
  (at level 100, right associativity).

(* ================================================================ *)
(** * lifespan (lines 75-150) *)
(* ================================================================ *)

(** [app.state.start_time = time.time()] *)
Definition set_start_time : M unit :=
  fun s =>
    let (t, w) := time_time (world s) in
    (Ok tt, {| world := w; app_start_time := Some t; trace := trace s |}).

(** The part of [lifespan] before [yield]. *)
Definition lifespan_startup : M unit :=
  logger INFO "Starting up chatbot backend...";;
  set_start_time;;
  (if TRACING_AVAILABLE env
      && truthy (settings_getattr "ENABLE_TRACING" (VBool false))
   then
     try_except
       (call (tracing_service_initialize true);;
        logger INFO "Distributed tracing initialized")
       (fun e => logger ERROR ("Tracing initialization failed: " +++ str e))
   else logger INFO "Tracing disabled or not available");;
  (if init_database env then
     try_except
       (call init_database_call;;
        logger INFO "Database initialized successfully")
       (fun e => logger ERROR ("Database initialization failed: " +++ str e))
   else
     logger WARNING "Database initialization skipped - running in minimal mode");;
  (if ENTERPRISE_AVAILABLE env && is_some (enterprise_service_manager env) then
     try_except
       (call initialize_all_services;;
        logger INFO "Enterprise services initialized";;
        call import_observability;;
        call import_event_bus;;
        call import_chaos_monkey;;
        call observability_initialize;;
        call (event_bus_create_stream "performance");;
        call (event_bus_create_stream "security");;
        call (event_bus_create_stream "errors");;
        call (event_bus_create_stream "business");;
        call chaos_monkey_create_default_experiments;;
        logger INFO "Enterprise components initialized")
       (fun e =>
          logger ERROR ("Enterprise service initialization failed: " +++ str e))
   else logger INFO "Enterprise services not available").

(** The part of [lifespan] after [yield]. *)
Definition lifespan_shutdown : M unit :=
  logger INFO "Shutting down chatbot backend...";;
  (if ENTERPRISE_AVAILABLE env && is_some (enterprise_service_manager env) then
     try_except
       (call shutdown_all_services;;
        logger INFO "Enterprise services shutdown complete")
       (fun e => logger ERROR ("Enterprise service shutdown failed: " +++ str e))
   else ret tt);;
  try_except
    (call import_db_manager;;
     call db_manager_cleanup;;
     logger INFO "Database connections cleaned up")
    (fun e => logger ERROR ("Database cleanup failed: " +++ str e)).

(* ================================================================ *)
(** * Legacy on_event hooks (lines 245-311) *)
(* ================================================================ *)

(** The closing banner of [startup_event] (lines 281-300). *)
Definition startup_banner : list string :=
  [ "Application startup completed successfully!";
    "WORLD-CLASS AI PLATFORM - INDUSTRY LEADER STATUS:";
    "   Cache Service (Redis + Fallback)";
    "   Performance Monitoring";
    "   Rate Limiting";
    "   Health Checks";
    "   Error Tracking & Recovery";
    "   WebSocket Manager";
    "   Multi-Tenant Architecture";
    "   AI Auto-Scaling";
    "   Security Intelligence";
    "   Advanced Analytics";
    "   Conversation Intelligence";
    "   Real-Time Collaboration";
    "   Content Moderation & AI Safety";
    "   Knowledge Graph & Semantic Understanding";
    "   Predictive Machine Learning";
    "   Enterprise-Grade Security";
    "   Sub-100ms Performance";
    "   Global Scale Ready" ].

Fixpoint log_all (lvl : level) (msgs : list string) : M unit :=
  match msgs with
  | [] => ret tt
  | m :: rest => logger lvl m;; log_all lvl rest
  end.

(** [enterprise_service_manager.NAME(...)]: attribute lookup on [None]
    raises before anything is called. *)
Definition manager_method (name : string) (op : Op) : M (ret_type op) :=
  match enterprise_service_manager env with
  | Some _ => call op
  | None => raise (AttributeError "NoneType" name)
  end.

Definition startup_event : M unit :=
  logger INFO "Starting Modern Chatbot Backend...";;
  (if init_database env then call init_database_call
   else
     logger WARNING "Database initialization skipped - running in minimal mode");;
  (if TRACING_AVAILABLE env then
     try_except
       (call (tracing_service_initialize false);;
        logger INFO "Tracing service initialized")
       (fun e => logger ERROR ("Tracing initialization failed: " +++ str e))
   else logger INFO "Tracing service not available");;
  (if ENTERPRISE_AVAILABLE env then
     try_except
       (manager_method "initialize_all_services" initialize_all_services;;
        logger INFO "Available services initialized")
       (fun e => logger ERROR ("Service initialization failed: " +++ str e))
   else logger INFO "Running in basic mode - enterprise services not available");;
  environment <- settings_attr "ENVIRONMENT";;
  (if eq_str environment "production" then
     logger INFO "Setting up production environment...";;
     logger INFO "Digital Ocean production environment ready"
   else ret tt);;
  log_all INFO startup_banner.

Definition shutdown_event : M unit :=
  logger INFO "Shutting down application...";;
  manager_method "shutdown_all_services" shutdown_all_services;;
  logger INFO "Application shutdown completed".

(* ================================================================ *)
(** * GET /health (lines 359-395) *)
(* ================================================================ *)

(** [time.time() - app.state.start_time if hasattr(app.state, 'start_time') else 0] *)
Definition uptime_guarded : M value :=
  fun s =>
    match app_start_time s with
    | Some t0 => (t <- now;; ret (VFloat (t - t0))) s
    | None => (Ok (VInt 0), s)
    end.

Definition health_check : M dict :=
  try_except
    (ts <- utcnow;;
     environment <- settings_attr "ENVIRONMENT";;
     uptime <- uptime_guarded;;
     let health_status : dict :=
       [ ("status", VStr "healthy");
         ("timestamp", VStr ts);
         ("version", VStr "1.0.0");
         ("environment", environment);
         ("uptime_seconds", uptime) ] in
     health_status <-
       try_except
         (call import_db_manager;;
          db_connected <- call db_manager_check_connection;;
          ret (dict_set "database"
                 (VStr (if truthy db_connected then "healthy" else "unhealthy"))
                 health_status))
         (fun e =>
            ret (dict_set "database" (VStr ("not_available: " +++ str e))
                   health_status));;
     health_status <-
       (if ENTERPRISE_AVAILABLE env then
          try_except
            (service_health <-
               manager_method "health_check_all_services" health_check_all_services;;
             services <- subscript service_health "services";;
             ret (dict_set "services" services health_status))
            (fun e =>
               ret (dict_set "services" (VStr ("error: " +++ str e)) health_status))
        else ret health_status);;
     ret health_status)
    (fun e =>
       logger ERROR ("Health check failed: " +++ str e);;
       ts <- utcnow;;
       ret [ ("status", VStr "unhealthy");
             ("timestamp", VStr ts);
             ("error", VStr (str e)) ]).

(* ================================================================ *)
(** * GET /health/simple (lines 398-406) *)
(* ================================================================ *)

Definition simple_health_check : M dict :=
  environment <- settings_attr "ENVIRONMENT";;
  ts <- utcnow;;
  railway <- settings_attr "RAILWAY_ENVIRONMENT";;
  ret [ ("status", VStr "healthy");
        ("environment", environment);
        ("timestamp", VStr ts);
        ("railway", VBool (truthy railway)) ].

(* ================================================================ *)
(** * GET /metrics (lines 409-452) *)
(* ================================================================ *)

(** [app.state.start_time], read without a guard *)
Definition state_start_time : M Q :=
  fun s =>
    match app_start_time s with
    | Some t0 => (Ok t0, s)
    | None => (Raise (AttributeError "State" "start_time"), s)
    end.

(** [a / b] on integers: the correctly rounded quotient. *)
Definition true_divide (a b : Z) : M Q :=
  if b =? 0 then raise ZeroDivisionError
  else
    match round_float (inject_Z a / inject_Z b) with
    | Some q => ret q
    | None => raise OverflowError
    end.

(** [(disk.used / disk.total) * 100] *)
Definition disk_percent (disk : sdiskusage) : M value :=
  q <- true_divide (du_used disk) (du_total disk);;
  ret (float_mul q 100).

Definition metrics : M dict :=
  try_except
    (cpu_percent <- call psutil_cpu_percent;;
     memory <- call psutil_virtual_memory;;
     disk <- call psutil_disk_usage;;
     call psutil_Process;;
     process_memory <- call process_memory_info;;
     system_disk_percent <- disk_percent disk;;
     proc_cpu <- call process_cpu_percent;;
     num_threads <- call process_num_threads;;
     t <- now;;
     t0 <- state_start_time;;
     environment <- settings_attr "ENVIRONMENT";;
     ts <- utcnow;;
     ret [ ("system_cpu_percent", VFloat cpu_percent);
           ("system_memory_total", VInt (vm_total memory));
           ("system_memory_available", VInt (vm_available memory));
           ("system_memory_percent", VFloat (vm_percent memory));
           ("system_disk_total", VInt (du_total disk));
           ("system_disk_used", VInt (du_used disk));
           ("system_disk_percent", system_disk_percent);
           ("process_memory_rss", VInt (rss process_memory));
           ("process_memory_vms", VInt (vms process_memory));
           ("process_cpu_percent", VFloat proc_cpu);
           ("process_num_threads", VInt num_threads);
           ("app_uptime_seconds", VFloat (t - t0));
           ("app_environment", environment);
           ("timestamp", VStr ts) ])
    (fun e =>
       logger ERROR ("Metrics collection failed: " +++ str e);;
       ts <- utcnow;;
       ret [ ("error", VStr "metrics_collection_failed");
             ("message", VStr (str e));
             ("timestamp", VStr ts) ]).

(* ================================================================ *)
(** * Running the module *)
(* ================================================================ *)

(** Every call into a collaborator completes: it returns or it raises. *)
Definition terminating : Prop := forall op w, fst (ext op w) <> Hang.




End Runtime.

Arguments state : clear implicits.

(* ================================================================== *)
(** * SPA fallback route (lines 341-356) *)
(* ================================================================== *)

(** What [serve_spa] ends with: the file response it returns or the
    [HTTPException] it raises, which the framework answers with that status
    code. *)
Inductive spa_result : Type :=
| FileResponse (path : string)
| HTTPException (status_code : Z) (detail : string).

(** [str.startswith] *)
Definition startswith (s p : string) : bool := String.prefix p s.

(** A path is prefixed by [p] when it is [p] followed by something. *)
Definition has_prefix (p s : string) : Prop := exists rest, s = p +++ rest.

(** The paths the fallback refuses to serve. *)
Definition reserved (full_path : string) : Prop :=
  has_prefix "api/" full_path \/ has_prefix "docs" full_path
  \/ has_prefix "redoc" full_path.

(** [exists] answers [Path.exists()] for a path written relative to the
    working directory; [Path("./static") / "index.html"] prints as
    [static/index.html]. *)
Definition serve_spa (exists_ : string -> bool) (full_path : string) : spa_result :=
  if startswith full_path "api/" || startswith full_path "docs"
     || startswith full_path "redoc"
  then HTTPException 404 "Not found"
  else
    let index_file := "static/index.html" in
    if exists_ index_file then FileResponse index_file
    else HTTPException 404 "Frontend not available".

(* ================================================================== *)
(** * Middleware registration (lines 202-227) *)
(* ================================================================== *)

Module Pipeline.

(** The middleware classes main.py registers, and the two the framework
    always puts around them. *)
Inductive middleware : Type :=
| ServerErrorMiddleware
| CORSMiddleware
| TrustedHostMiddleware
| EnterpriseMiddleware
| ErrorHandlingMiddleware
| SecurityEnhancementMiddleware
| MultiTenantMiddleware
| BaseHTTPMiddleware (dispatch : string)
| ExceptionMiddleware.

(** The function registered by [app.middleware("http")]. *)
Definition rate_limit_middleware : string := "rate_limit_middleware".

(** The framework's application object, as far as middleware goes
    (Starlette's [applications.py], on which FastAPI's [app] is built):
    [add_middleware] does [self.user_middleware.insert(0, ...)], and the
    decorator [app.middleware("http")] registers its function through
    [add_middleware(BaseHTTPMiddleware, dispatch=func)]. *)
Record application : Type := { user_middleware : list middleware }.

Definition FastAPI : application := {| user_middleware := [] |}.

Definition add_middleware (m : middleware) (app : application) : application :=
  {| user_middleware := m :: user_middleware app |}.

Definition middleware_http (func : string) (app : application) : application :=
  add_middleware (BaseHTTPMiddleware func) app.

(** Lines 202-227, top to bottom; [DEBUG] is [settings.DEBUG]. *)
Definition app (DEBUG : bool) : application :=
  let a := FastAPI in
  let a := add_middleware CORSMiddleware a in
  let a := if negb DEBUG then add_middleware TrustedHostMiddleware a else a in
  let a := add_middleware EnterpriseMiddleware a in
  let a := add_middleware ErrorHandlingMiddleware a in
  let a := add_middleware SecurityEnhancementMiddleware a in
  let a := add_middleware MultiTenantMiddleware a in
  middleware_http rate_limit_middleware a.

(** The stages a request goes through. *)
Inductive stage : Type :=
| Through (m : middleware)
| RouteDispatch.

Section Stack.
Variable request : Type.

(** An assembled ASGI application, observed through the stages a request
    enters, in order, when every stage hands the request on. *)
Definition asgi : Type := request -> list stage.

Definition router : asgi := fun _ => [RouteDispatch].

(** [cls(app)]: the new middleware sees the request first. *)
Definition wrap (cls : middleware) (inner : asgi) : asgi :=
  fun r => Through cls :: inner r.

(** [build_middleware_stack]: the framework's error middleware, the user
    middleware and the exception middleware, wrapped around the router
    [for cls in reversed(middleware)]. *)
Definition build_middleware_stack (a : application) : asgi :=
  let middleware :=
    [ServerErrorMiddleware] ++ user_middleware a ++ [ExceptionMiddleware] in
  fold_left (fun inner cls => wrap cls inner) (rev middleware) router.
End Stack.

(** The four stages the canonical order names. *)
Definition error_boundary : stage := Through ErrorHandlingMiddleware.
Definition security_enhancement : stage := Through SecurityEnhancementMiddleware.
Definition multi_tenant_resolution : stage := Through MultiTenantMiddleware.
Definition admission_control : stage :=
  Through (BaseHTTPMiddleware rate_limit_middleware).

Definition canonical_order : list stage :=
  [ error_boundary; security_enhancement; multi_tenant_resolution;
    admission_control; RouteDispatch ].

Definition is_canonical_stage (s : stage) : bool :=
  match s with
  | Through ErrorHandlingMiddleware => true
  | Through SecurityEnhancementMiddleware => true
  | Through MultiTenantMiddleware => true
  | Through (BaseHTTPMiddleware _) => true
  | RouteDispatch => true
  | _ => false
  end.

End Pipeline.

(* ================================================================== *)
(** * Scripted collaborators *)
(* ================================================================== *)

(** Concrete worlds on which the module can be run: every collaborator
    follows a fixed script and the clock stands still. *)
Module Script.

Definition sample (op : Op) : ret_type op :=
  match op return ret_type op with
  | db_manager_check_connection => VBool true
  | health_check_all_services => VDict [("services", VDict [])]
  | psutil_cpu_percent => (25 # 2)%Q
  | psutil_virtual_memory =>
      {| vm_total := 8192; vm_available := 4096; vm_percent := 50%Q |}
  | psutil_disk_usage => {| du_total := 1000; du_used := 250 |}
  | process_memory_info => {| rss := 100; vms := 200 |}
  | process_cpu_percent => 1%Q
  | process_num_threads => 4
  | _ => tt
  end.

(** A world without memory whose collaborators end as [script] says. *)
Definition ext (script : Op -> ending) (op : Op) (w : unit)
  : outcome (ret_type op) * unit :=
  match script op with
  | Returned => (Ok (sample op), w)
  | Raised e => (Raise e, w)
  | Hung => (Hang, w)
  end.

Definition time_time (w : unit) : Q * unit := (1700000000%Q, w).

Definition utcnow_isoformat (w : unit) : string * unit :=
  ("2024-01-01T00:00:00", w).

Definition all_fine : Op -> ending := fun _ => Returned.

Definition boom : exn := PyError "RuntimeError" "boom".

Definition database_down (op : Op) : ending :=
  match op with
  | init_database_call => Raised (PyError "OperationalError" "connection refused")
  | _ => Returned
  end.



Definition cpu_read_fails (op : Op) : ending :=
  match op with
  | psutil_cpu_percent => Raised (PyError "OSError" "cannot read /proc/stat")
  | _ => Returned
  end.

Definition settings_full (name : string) : option value :=
  if String.eqb name "ENVIRONMENT" then Some (VStr "production")
  else if String.eqb name "RAILWAY_ENVIRONMENT" then Some VNone
  else if String.eqb name "ENABLE_TRACING" then Some (VBool true)
  else None.

(** Every optional import succeeded. *)
Definition full_env : module_env :=
  {| init_database := true;
     TRACING_AVAILABLE := true;
     ENTERPRISE_AVAILABLE := true;
     settings := settings_full |}.

(** The enterprise import failed: basic mode. *)
Definition basic_env : module_env :=
  {| init_database := true;
     TRACING_AVAILABLE := true;
     ENTERPRISE_AVAILABLE := false;
     settings := settings_full |}.

(** A fresh process: nothing logged, [app.state.start_time] not set. *)
Definition fresh : state unit :=
  {| world := tt; app_start_time := None; trace := [] |}.

(** A process whose lifespan has set the start time. *)
Definition started : state unit :=
  {| world := tt; app_start_time := Some 1699999000%Q; trace := [] |}.

End Script.

(* ================================================================== *)
(** * Root endpoint (lines 314-337) *)
(* ================================================================== *)

(** What [root] returns: the frontend's entry document or the API
    description. *)
Inductive root_result : Type :=
| RootFile (path : string)
| RootInfo (body : dict).

Definition api_info : dict :=
  [ ("message", VStr "Modern Chatbot Backend API");
    ("version", VStr "1.0.0");
    ("status", VStr "running");
    ("features",
     VList [ VStr "Enhanced RAG System";
             VStr "Document Management";
             VStr "Real-time Chat Monitoring";
             VStr "Advanced Security";
             VStr "Comprehensive Analytics";
             VStr "Multi-provider AI Support" ]) ].

Definition root (exists_ : string -> bool) : root_result :=
  let index_file := "static/index.html" in
  if exists_ index_file then RootFile index_file else RootInfo api_info.

(* ================================================================== *)
(** * Route table (lines 153-200, 229-239, 314-409) *)
(* ================================================================== *)

Module Routing.

(** Where a GET request ends up. *)
Inductive target : Type :=
| to_openapi
| to_swagger_ui
| to_swagger_ui_redirect
| to_redoc
| to_included (router : string) (subpath : string)
| to_static (subpath : string)
| to_root
| to_serve_spa (full_path : string)
| to_health_check
| to_simple_health_check
| to_metrics.

(** The kinds of route main.py registers. *)
Inductive route : Type :=
| Exact (path : string) (t : target)          (* a fixed path *)
| Include (prefix : string) (router : string) (* include_router(r, prefix=...) *)
| Mount (prefix : string)                     (* app.mount(prefix, StaticFiles) *)
| CatchAll.                                   (* "/{full_path:path}" *)

(** [docs_url] and [redoc_url] as passed to [FastAPI(...)]. *)
Definition docs_url (DEBUG : bool) : option string :=
  if DEBUG then Some "/docs" else None.

Definition redoc_url (DEBUG : bool) : option string :=
  if DEBUG then Some "/redoc" else None.

(** The routes the framework's constructor sets up for the schema and the
    documentation pages; [openapi_url] keeps its default. *)
Definition setup (DEBUG : bool) : list route :=
  [Exact "/openapi.json" to_openapi]
  ++ match docs_url DEBUG with
     | Some u => [Exact u to_swagger_ui;
                  Exact (u +++ "/oauth2-redirect") to_swagger_ui_redirect]
     | None => []
     end
  ++ match redoc_url DEBUG with
     | Some u => [Exact u to_redoc]
     | None => []
     end.

(** The route table in registration order; [static_dir_exists] is
    [Path("./static").exists()] at import time. *)
Definition routes (DEBUG static_dir_exists : bool) : list route :=
  setup DEBUG
  ++ [ Include "/api/v1" "api_router";
       Include "/api/v1" "super_admin_router";
       Include "/api/v1" "websocket_router";
       Include "/api/v1" "health_router";
       Include "/api/v1" "enterprise_ops_router" ]
  ++ (if static_dir_exists then [Mount "/static"] else [])
  ++ [ Exact "/" to_root;
       CatchAll;
       Exact "/health" to_health_check;
       Exact "/health/simple" to_simple_health_check;
       Exact "/metrics" to_metrics ].

(** [strip p s]: what follows [p] in [s], when [s] starts with [p]. *)
Fixpoint strip (p s : string) : option string :=
  match p, s with
  | EmptyString, _ => Some s
  | String c p', String d s' => if Ascii.eqb c d then strip p' s' else None
  | String _ _, EmptyString => None
  end.

Section Dispatch.

(** Whether an included router has a GET route for the path that remains
    after its prefix; the routers live in other modules. *)
Variable serves : string -> string -> bool.

(** A route matches a path in full or not at all (GET requests, paths
    without line breaks). *)
Definition matches (r : route) (path : string) : option target :=
  match r with
  | Exact p t => if String.eqb path p then Some t else None
  | Include prefix router =>
      match strip prefix path with
      | Some subpath =>
          if serves router subpath then Some (to_included router subpath)
          else None
      | None => None
      end
  | Mount prefix =>
      match strip (prefix +++ "/") path with
      | Some subpath => Some (to_static subpath)
      | None => None
      end
  | CatchAll =>
      match strip "/" path with
      | Some full_path => Some (to_serve_spa full_path)
      | None => None
      end
  end.

(** The framework's router takes the first route, in registration order,
    that matches; [None] is the router's own 404. *)
Fixpoint first_match (rs : list route) (path : string) : option target :=
  match rs with
  | [] => None
  | r :: rs' =>
      match matches r path with
      | Some t => Some t
      | None => first_match rs' path
      end
  end.

Definition dispatch (DEBUG static_dir_exists : bool) (path : string)
  : option target :=
  first_match (routes DEBUG static_dir_exists) path.

End Dispatch.

End Routing.

(* ================================================================== *)
(** * Order of calls in a trace *)
(* ================================================================== *)


Definition is_error_log (ev : event) : bool :=
  match ev with
  | Log ERROR _ => true
  | _ => false
  end.

Definition is_log (ev : event) : bool :=
  match ev with
  | Log _ _ => true
  | Call _ _ => false
  end.

Definition returned (ev : event) : bool :=
  match ev with
  | Call _ Returned => true
  | _ => false
  end.

(** The fields of a full metrics snapshot, in order. *)
Definition snapshot_fields : list string :=
  [ "system_cpu_percent"; "system_memory_total"; "system_memory_available";
    "system_memory_percent"; "system_disk_total"; "system_disk_used";
    "system_disk_percent"; "process_memory_rss"; "process_memory_vms";
    "process_cpu_percent"; "process_num_threads"; "app_uptime_seconds";
    "app_environment"; "timestamp" ].

(** The fields every health report starts with. *)
Definition report_fields : list string :=
  ["status"; "timestamp"; "version"; "environment"; "uptime_seconds"].

(** The reads [metrics] makes. *)
Definition is_psutil (op : Op) : bool :=
  match op with
  | psutil_cpu_percent | psutil_virtual_memory | psutil_disk_usage
  | psutil_Process | process_memory_info | process_cpu_percent
  | process_num_threads => true
  | _ => false
  end.

(** A trace split into its last two events and what comes before. *)
Definition last_two (tr : list event) : list event :=
  skipn (List.length tr - 2) tr.

Definition but_last_two (tr : list event) : list event :=
  firstn (List.length tr - 2) tr.

(* ================================================================== *)
(** * More scripted collaborators *)
(* ================================================================== *)

Module Scenario.

(** Collaborators that answer with the given values. *)
Definition ext (answers : forall op : Op, ret_type op) (script : Op -> ending)
           (op : Op) (w : unit) : outcome (ret_type op) * unit :=
  match script op with
  | Returned => (Ok (answers op), w)
  | Raised e => (Raise e, w)
  | Hung => (Hang, w)
  end.

(** A disk that reports a total size of zero. *)
Definition empty_disk (op : Op) : ret_type op :=
  match op return ret_type op with
  | psutil_disk_usage => {| du_total := 0; du_used := 0 |}
  | op' => Script.sample op'
  end.

(** A service manager whose health report has no [services] entry. *)
Definition no_services (op : Op) : ret_type op :=
  match op return ret_type op with
  | health_check_all_services => VDict [("overall", VStr "ok")]
  | op' => Script.sample op'
  end.




(** Both health probes raise. *)
Definition probes_fail (op : Op) : ending :=
  match op with
  | db_manager_check_connection =>
      Raised (PyError "OperationalError" "connection refused")
  | health_check_all_services => Raised Script.boom
  | _ => Returned
  end.

Definition memory_read_fails (op : Op) : ending :=
  match op with
  | psutil_virtual_memory => Raised (PyError "OSError" "cannot read /proc/meminfo")
  | _ => Returned
  end.


(** Only the API routers serve something: the path [/chat]. *)
Definition serves (router subpath : string) : bool :=
  String.eqb router "api_router" && String.eqb subpath "/chat".

End Scenario.

(* ================================================================== *)
(** * Properties *)
(* ================================================================== *)

Lemma calls_app (op : Op) (a b : list event) :
  calls op (a ++ b) = (calls op a + calls op b)%nat.
Proof.
  unfold calls. rewrite filter_app, length_app. reflexivity.
Qed.

Lemma startswith_has_prefix (s p : string) :
  startswith s p = true <-> has_prefix p s.
Proof.
  unfold startswith, has_prefix. revert s.
  induction p as [|c p IH]; intros s.
  - destruct s; simpl; split; intros _; eauto.
  - destruct s as [|d s]; simpl.
    + split; [discriminate | intros [rest H]; discriminate].
    + destruct (ascii_dec c d) as [Heq|Hne].
      * subst d. rewrite IH. split; intros [rest H].
        -- exists rest. now rewrite H.
        -- inversion H. now exists rest.
      * split; [discriminate | intros [rest H]; inversion H; congruence].
Qed.

Section Properties.

Context {W : Type}.
Variable ext : forall op : Op, W -> outcome (ret_type op) * W.
Variable time_time : W -> Q * W.
Variable utcnow_isoformat : W -> string * W.
Variable env : module_env.

Ltac unfold_monad :=
  unfold manager_method, enterprise_service_manager, is_some, settings_attr,
    subscript, uptime_guarded, state_start_time, disk_percent, true_divide,
    set_start_time, now, utcnow, call, logger, emit, try_except, bind, ret,
    raise in *.

(** Case analysis on the next answer of the world; a call that hangs is
    ruled out by [H : terminating ext]. *)
Ltac ext_case H :=
  match goal with
  | |- context [ext ?op ?w] =>
      let E := fresh "E" in
      destruct (ext op w) as [[?|?|] ?] eqn:E;
      [ | | exfalso; apply (H op w); rewrite E; reflexivity ]; cbn in *
  | |- context [time_time ?w] => destruct (time_time w) as [? ?]; cbn in *
  | |- context [utcnow_isoformat ?w] =>
      destruct (utcnow_isoformat w) as [? ?]; cbn in *
  end.

(** Same, keeping the case of a call that never completes. *)
Ltac ext_case_all :=
  match goal with
  | |- context [ext ?op ?w] =>
      let E := fresh "E" in
      destruct (ext op w) as [[?|?|] ?] eqn:E; cbn in *
  | |- context [time_time ?w] => destruct (time_time w) as [? ?]; cbn in *
  | |- context [utcnow_isoformat ?w] =>
      destruct (utcnow_isoformat w) as [? ?]; cbn in *
  end.

(** The trace after a run, as the trace before followed by new events. *)
Ltac new_events := cbn; rewrite <- ?app_assoc; reflexivity.

(** ** The lifespan path contains every failure *)

Lemma lifespan_startup_contained (st : state W) :
  terminating ext ->
  exists st' evs,
    lifespan_startup ext time_time env st = (Ok tt, st')
    /\ trace st' = trace st ++ evs
    /\ calls (tracing_service_initialize true) evs =
         (if TRACING_AVAILABLE env
             && truthy (settings_getattr env "ENABLE_TRACING" (VBool false))
          then 1 else 0)%nat
    /\ calls init_database_call evs = (if init_database env then 1 else 0)%nat
    /\ calls initialize_all_services evs =
         (if ENTERPRISE_AVAILABLE env then 1 else 0)%nat.
Proof.
  intros Hterm. destruct st as [w t0 tr].
  unfold lifespan_startup. unfold_monad. cbn.
  destruct (time_time w) as [t w1]. cbn.
  destruct (TRACING_AVAILABLE env && truthy _);
    destruct (init_database env); destruct (ENTERPRISE_AVAILABLE env); cbn;
    repeat ext_case Hterm;
    (do 2 eexists; split; [reflexivity|]; split; [new_events|]; cbn; auto).
Qed.



(** ** GET /health *)

(** The health handler never raises: whenever its probes complete it
    returns a body.  If building the status fails (the settings object has
    no [ENVIRONMENT]) the body is exactly [status: unhealthy], a timestamp
    and the error; otherwise the status is [healthy] and a failure of the
    database probe or of the service probe is written into the
    [database] or [services] field of the report. *)
Theorem health_check_never_fails (st : state W) :
  terminating ext ->
  exists body st' evs,
    health_check ext time_time utcnow_isoformat env st = (Ok body, st')
    /\ trace st' = trace st ++ evs
    /\ (settings env "ENVIRONMENT" = None ->
        exists ts,
          body = [ ("status", VStr "unhealthy");
                   ("timestamp", VStr ts);
                   ("error", VStr (str (AttributeError "Settings" "ENVIRONMENT"))) ])
    /\ (settings env "ENVIRONMENT" <> None ->
        dict_get "status" body = Some (VStr "healthy")
        /\ (forall op e,
               In (Call op (Raised e)) evs ->
               op = import_db_manager \/ op = db_manager_check_connection ->
               dict_get "database" body = Some (VStr ("not_available: " +++ str e)))
        /\ (forall e,
               In (Call health_check_all_services (Raised e)) evs ->
               dict_get "services" body = Some (VStr ("error: " +++ str e)))).
Proof.
  intros Hterm. destruct st as [w t0 tr].
  unfold health_check. unfold_monad. cbn.
  destruct (utcnow_isoformat w) as [ts w1]. cbn.
  destruct (settings env "ENVIRONMENT") as [v|]; cbn.
  2: { destruct (utcnow_isoformat w1) as [ts' w2].
       do 3 eexists. split; [reflexivity|]. split; [new_events|].
       split; [intros _; eexists; reflexivity | intros H; congruence]. }
  destruct t0 as [t0|]; cbn; destruct (ENTERPRISE_AVAILABLE env); cbn;
    repeat ext_case Hterm;
    try match goal with
        | |- context [match ?a with VNone => _ | _ => _ end] =>
            destruct a as [| | | | | | |d]; cbn;
            try destruct (dict_get "services" d); cbn
        end;
    (do 3 eexists; split; [reflexivity|]; split; [new_events|];
     split; [intros H; discriminate|]; intros _; cbn;
     split; [reflexivity|]; split; intros; cbn in *;
     intuition (try discriminate; try congruence)).
Qed.


(** ** GET /health/simple *)

(** C8 (amended).  When the settings object has the two attributes the
    handler reads, the liveness payload has the four fields [status],
    [environment], [timestamp] and [railway], in this order, where
    [railway] is the truth value of [settings.RAILWAY_ENVIRONMENT]. *)
Theorem simple_health_check_fields (st : state W) (v r : value) :
  settings env "ENVIRONMENT" = Some v ->
  settings env "RAILWAY_ENVIRONMENT" = Some r ->
  exists ts st',
    simple_health_check utcnow_isoformat env st =
      (Ok [ ("status", VStr "healthy");
            ("environment", v);
            ("timestamp", VStr ts);
            ("railway", VBool (truthy r)) ], st')
    /\ trace st' = trace st.
Proof.
  intros Hv Hr. destruct st as [w t0 tr].
  unfold simple_health_check. unfold_monad. rewrite Hv, Hr. cbn.
  destruct (utcnow_isoformat w) as [ts w1]. cbn.
  do 2 eexists. split; reflexivity.
Qed.

(** ** GET /metrics *)

(** C2 (amended).  Whenever its reads complete, the metrics handler
    returns a body and does not raise.  The body is either the full
    snapshot or the three-field error payload; a read that raises replaces
    the whole snapshot by the error payload carrying that error's
    message. *)
Theorem metrics_failure_replaces_snapshot (st : state W) :
  terminating ext ->
  exists body st' evs,
    metrics ext time_time utcnow_isoformat env st = (Ok body, st')
    /\ trace st' = trace st ++ evs
    /\ (keys body =
          [ "system_cpu_percent"; "system_memory_total";
            "system_memory_available"; "system_memory_percent";
            "system_disk_total"; "system_disk_used"; "system_disk_percent";
            "process_memory_rss"; "process_memory_vms";
            "process_cpu_percent"; "process_num_threads";
            "app_uptime_seconds"; "app_environment"; "timestamp" ]
        \/ keys body = ["error"; "message"; "timestamp"])
    /\ (forall op e,
           In (Call op (Raised e)) evs ->
           exists ts,
             body = [ ("error", VStr "metrics_collection_failed");
                      ("message", VStr (str e));
                      ("timestamp", VStr ts) ]).
Proof.
  intros Hterm. destruct st as [w t0 tr].
  unfold metrics. unfold_monad. cbn.
  repeat ext_case Hterm;
    try (destruct (du_total _ =? 0); cbn;
         try (destruct (round_float _); cbn); repeat ext_case Hterm);
    try (destruct t0 as [t0|]; cbn; repeat ext_case Hterm);
    try (destruct (settings env "ENVIRONMENT") as [v|]; cbn;
         repeat ext_case Hterm);
    (do 3 eexists; split; [reflexivity|];
     split; [new_events|]; cbn; split; [auto|];
     intros op' e' Hin; cbn in Hin;
     intuition (try discriminate);
     match goal with
     | H : Call _ _ = Call _ _ |- _ => inversion H; subst; eauto
     end).
Qed.

(** The two handlers and an unset start time.  With
    [app.state.start_time] unset, the metrics handler returns the error
    payload instead of raising (its unguarded read fails inside the
    catch-all), while the health handler, which guards the read, reports
    [uptime_seconds] as the integer 0. *)
Theorem metrics_unset_start_time (st : state W) :
  terminating ext ->
  app_start_time st = None ->
  (exists e ts st',
      metrics ext time_time utcnow_isoformat env st =
        (Ok [ ("error", VStr "metrics_collection_failed");
              ("message", VStr (str e));
              ("timestamp", VStr ts) ], st')
      /\ (e = AttributeError "State" "start_time"
          \/ e = ZeroDivisionError
          \/ e = OverflowError
          \/ exists op, In (Call op (Raised e)) (trace st')))
  /\ (forall v, settings env "ENVIRONMENT" = Some v ->
      exists body st',
        health_check ext time_time utcnow_isoformat env st = (Ok body, st')
        /\ dict_get "uptime_seconds" body = Some (VInt 0)).
Proof.
  intros Hterm Hst. destruct st as [w t0 tr]. cbn in Hst. subst t0. split.
  - unfold metrics. unfold_monad. cbn.
    repeat ext_case Hterm;
      try (destruct (du_total _ =? 0); cbn;
         try (destruct (round_float _); cbn); repeat ext_case Hterm);
      first
        [ exists (AttributeError "State" "start_time"); do 2 eexists;
          split; [reflexivity | auto]
        | exists ZeroDivisionError; do 2 eexists;
          split; [reflexivity | auto]
        | exists OverflowError; do 2 eexists;
          split; [reflexivity | auto]
        | do 3 eexists; split; [reflexivity|]; right; right; right; eexists;
          cbn; rewrite <- ?app_assoc; apply in_or_app; right; cbn;
          eauto 20 ].
  - intros v Hv. unfold health_check. unfold_monad. cbn.
    destruct (utcnow_isoformat w) as [ts w1]. cbn. rewrite Hv. cbn.
    destruct (ENTERPRISE_AVAILABLE env); cbn;
      repeat ext_case Hterm;
      try match goal with
          | |- context [match ?a with VNone => _ | _ => _ end] =>
              destruct a as [| | | | | | |d]; cbn;
              try destruct (dict_get "services" d); cbn
          end;
      (do 2 eexists; split; reflexivity).
Qed.

(** ** Application state *)

(** X2.  The lifespan records the start time before it touches any
    collaborator: whatever the collaborators do afterwards, even if one of
    them never completes, [app.state.start_time] holds the clock reading
    taken on entry. *)
Theorem lifespan_startup_sets_start_time (st : state W) :
  app_start_time (snd (lifespan_startup ext time_time env st)) =
    Some (fst (time_time (world st))).
Proof.
  destruct st as [w t0 tr].
  unfold lifespan_startup. unfold_monad. cbn.
  destruct (time_time w) as [t w1]. cbn.
  destruct (TRACING_AVAILABLE env && truthy _);
    destruct (init_database env); destruct (ENTERPRISE_AVAILABLE env); cbn;
    repeat ext_case_all; reflexivity.
Qed.

(** X3.  Nothing but the lifespan's startup writes [app.state.start_time]: the
    three handlers, the lifespan's shutdown and both legacy hooks leave it
    as they found it, however the collaborators behave. *)
Theorem start_time_preserved (st : state W) :
  app_start_time (snd (health_check ext time_time utcnow_isoformat env st))
  = app_start_time st
  /\ app_start_time (snd (simple_health_check utcnow_isoformat env st))
     = app_start_time st
  /\ app_start_time (snd (metrics ext time_time utcnow_isoformat env st))
     = app_start_time st
  /\ app_start_time (snd (lifespan_shutdown ext env st)) = app_start_time st
  /\ app_start_time (snd (startup_event ext env st)) = app_start_time st
  /\ app_start_time (snd (shutdown_event ext env st)) = app_start_time st.
Proof.
  destruct st as [w t0 tr]. repeat split.
  - unfold health_check. unfold_monad. cbn.
    destruct (utcnow_isoformat w) as [ts w1]. cbn.
    destruct (settings env "ENVIRONMENT") as [v|]; cbn;
      [|destruct (utcnow_isoformat w1); reflexivity].
    destruct t0 as [t0|]; cbn; destruct (ENTERPRISE_AVAILABLE env); cbn;
      repeat ext_case_all;
      try match goal with
          | |- context [match ?a with VNone => _ | _ => _ end] =>
              destruct a as [| | | | | | |d]; cbn;
              try destruct (dict_get "services" d); cbn
          end;
      reflexivity.
  - unfold simple_health_check. unfold_monad. cbn.
    destruct (settings env "ENVIRONMENT"); cbn; [|reflexivity].
    destruct (utcnow_isoformat w). cbn.
    destruct (settings env "RAILWAY_ENVIRONMENT"); reflexivity.
  - unfold metrics. unfold_monad. cbn.
    repeat ext_case_all;
      try (destruct (du_total _ =? 0); cbn;
           try (destruct (round_float _); cbn); repeat ext_case_all);
      try (destruct t0 as [t0|]; cbn; repeat ext_case_all);
      try (destruct (settings env "ENVIRONMENT") as [v|]; cbn;
           repeat ext_case_all);
      reflexivity.
  - unfold lifespan_shutdown. unfold_monad. cbn.
    destruct (ENTERPRISE_AVAILABLE env); cbn; repeat ext_case_all; reflexivity.
  - unfold startup_event. unfold_monad. cbn.
    destruct (init_database env); destruct (TRACING_AVAILABLE env);
      destruct (ENTERPRISE_AVAILABLE env);
      destruct (settings env "ENVIRONMENT") as [v|]; cbn;
      repeat ext_case_all;
      try (destruct (eq_str v "production"); cbn); reflexivity.
  - unfold shutdown_event. unfold_monad. cbn.
    destruct (ENTERPRISE_AVAILABLE env); cbn; repeat ext_case_all; reflexivity.
Qed.

(** ** More on GET /metrics *)

(** The next read returns, by [H : forall op, is_psutil op = true -> ...]. *)
Ltac read_ok H :=
  match goal with
  | |- context [ext ?op ?w] =>
      let a := fresh "a" in
      let w' := fresh "w" in
      let E := fresh "E" in
      destruct (H op eq_refl w) as (a & w' & E); rewrite E; cbn in *
  | |- context [time_time ?w] => destruct (time_time w) as [? ?]; cbn in *
  | |- context [utcnow_isoformat ?w] =>
      destruct (utcnow_isoformat w) as [? ?]; cbn in *
  end.

(** X7.  A failed read ends the collection: the failed call is the last call of
    the request, every call before it returned, and the failure is logged
    once, with its message, right after it.  The handler logs an error
    exactly when it answers with the error payload; a full snapshot is
    produced silently. *)
Theorem metrics_failure_is_last_and_logged (st : state W) :
  terminating ext ->
  exists body st' evs,
    metrics ext time_time utcnow_isoformat env st = (Ok body, st')
    /\ trace st' = trace st ++ evs
    /\ (forall op e,
           In (Call op (Raised e)) evs ->
           last_two evs =
             [Call op (Raised e);
              Log ERROR ("Metrics collection failed: " +++ str e)]
           /\ forallb returned (but_last_two evs) = true)
    /\ ((keys body = snapshot_fields /\ filter is_log evs = [])
        \/ exists e ts,
             body = [ ("error", VStr "metrics_collection_failed");
                      ("message", VStr (str e));
                      ("timestamp", VStr ts) ]
             /\ filter is_log evs =
                  [Log ERROR ("Metrics collection failed: " +++ str e)]).
Proof.
  intros Hterm. destruct st as [w t0 tr].
  unfold metrics. unfold_monad. cbn.
  repeat ext_case Hterm;
    try (destruct (du_total _ =? 0); cbn;
         try (destruct (round_float _); cbn); repeat ext_case Hterm);
    try (destruct t0 as [t0|]; cbn; repeat ext_case Hterm);
    try (destruct (settings env "ENVIRONMENT") as [v|]; cbn;
         repeat ext_case Hterm);
    (do 3 eexists; split; [reflexivity|]; split; [new_events|]; split;
     [ intros op' e' Hin; cbn in Hin;
       intuition (try discriminate);
       match goal with
       | H : Call _ _ = Call _ _ |- _ => inversion H; subst; split; reflexivity
       end
     | cbn;
       first [ left; split; reflexivity
             | right; eexists (PyError EmptyString _), _; split; reflexivity
             | right; do 2 eexists; split; reflexivity ] ]).
Qed.

(** X8.  A disk whose total size is zero makes the percentage a division by
    zero: the handler answers with the error payload carrying that message,
    and the process CPU load and thread count are never read. *)
Theorem metrics_zero_disk (st : state W) :
  (forall op, is_psutil op = true ->
              forall w, exists a w', ext op w = (Ok a, w')) ->
  (forall w d w', ext psutil_disk_usage w = (Ok d, w') -> du_total d = 0) ->
  exists ts st' evs,
    metrics ext time_time utcnow_isoformat env st =
      (Ok [ ("error", VStr "metrics_collection_failed");
            ("message", VStr "division by zero");
            ("timestamp", VStr ts) ], st')
    /\ trace st' = trace st ++ evs
    /\ calls process_cpu_percent evs = 0%nat
    /\ calls process_num_threads evs = 0%nat.
Proof.
  intros Hreads Hdisk. destruct st as [w t0 tr].
  unfold metrics. unfold_monad. cbn.
  do 3 read_ok Hreads.
  match goal with
  | E : ext psutil_disk_usage _ = (Ok ?d, _) |- _ =>
      rewrite (Hdisk _ _ _ E)
  end.
  cbn. repeat read_ok Hreads.
  do 3 eexists. split; [reflexivity|]. split; [new_events|].
  split; reflexivity.
Qed.

(** ** More on GET /health *)

Ltac health_cases H :=
  repeat ext_case H;
  try match goal with
      | |- context [match ?a with VNone => _ | _ => _ end] =>
          destruct a as [| | | | | | |?d]; cbn;
          try destruct (dict_get "services" d); cbn
      end.

(** X11.  The shape of a health report.  When the status can be built, the report
    has the five base fields followed by [database], and by [services]
    exactly when the enterprise services were imported; the database field
    is [healthy], [unhealthy] or a [not_available: ...] text; and nothing
    is logged, even when a probe fails. *)
Theorem health_report_shape (st : state W) (v : value) :
  terminating ext ->
  settings env "ENVIRONMENT" = Some v ->
  exists body st' evs,
    health_check ext time_time utcnow_isoformat env st = (Ok body, st')
    /\ trace st' = trace st ++ evs
    /\ keys body =
         report_fields ++ ["database"]
         ++ (if ENTERPRISE_AVAILABLE env then ["services"] else [])
    /\ dict_get "environment" body = Some v
    /\ (dict_get "database" body = Some (VStr "healthy")
        \/ dict_get "database" body = Some (VStr "unhealthy")
        \/ exists e,
             dict_get "database" body = Some (VStr ("not_available: " +++ str e)))
    /\ filter is_log evs = [].
Proof.
  intros Hterm Hv. destruct st as [w t0 tr].
  unfold health_check. unfold_monad. cbn.
  destruct (utcnow_isoformat w) as [ts w1]. cbn. rewrite Hv. cbn.
  destruct t0 as [t0|]; cbn; destruct (ENTERPRISE_AVAILABLE env); cbn;
    health_cases Hterm;
    (do 3 eexists; split; [reflexivity|]; split; [new_events|];
     split; [reflexivity|]; split; [reflexivity|]; split; [|reflexivity]; cbn;
     try match goal with
         | |- context [truthy ?a] => destruct (truthy a)
         end;
     eauto).
Qed.

(** X12.  Once the start time is set, the reported uptime is the clock reading
    taken right after the timestamp, minus the start time. *)
Theorem health_uptime_started (st : state W) (t0 : Q) (v : value) :
  terminating ext ->
  settings env "ENVIRONMENT" = Some v ->
  app_start_time st = Some t0 ->
  exists body st',
    health_check ext time_time utcnow_isoformat env st = (Ok body, st')
    /\ dict_get "uptime_seconds" body =
         Some (VFloat
                 (fst (time_time (snd (utcnow_isoformat (world st)))) - t0)).
Proof.
  intros Hterm Hv Ht0. destruct st as [w t0' tr]. cbn in Ht0. subst t0'.
  unfold health_check. unfold_monad. cbn.
  destruct (utcnow_isoformat w) as [ts w1]. cbn. rewrite Hv. cbn.
  destruct (time_time w1) as [t w2]. cbn.
  destruct (ENTERPRISE_AVAILABLE env); cbn;
    health_cases Hterm;
    (do 2 eexists; split; reflexivity).
Qed.

(** X13.  Of the service manager's report only the [services] entry is passed on.
    When the manager answers with a dict that has no such entry, the lookup
    fails with a [KeyError] and the field reads [error: 'services']. *)
Theorem health_services_entry (st : state W) (v : value) (d : dict) :
  terminating ext ->
  settings env "ENVIRONMENT" = Some v ->
  ENTERPRISE_AVAILABLE env = true ->
  (forall w, exists w', ext health_check_all_services w = (Ok (VDict d), w')) ->
  exists body st',
    health_check ext time_time utcnow_isoformat env st = (Ok body, st')
    /\ dict_get "services" body =
         Some (match dict_get "services" d with
               | Some services => services
               | None => VStr "error: 'services'"
               end).
Proof.
  intros Hterm Hv Hent Hsvc. destruct st as [w t0 tr].
  unfold health_check. unfold_monad. cbn.
  destruct (utcnow_isoformat w) as [ts w1]. cbn. rewrite Hv, Hent. cbn.
  destruct t0 as [t0|]; cbn;
    repeat match goal with
           | |- context [ext health_check_all_services ?w] =>
               let w' := fresh "w" in
               let E := fresh "E" in
               destruct (Hsvc w) as (w' & E); rewrite E; cbn
           | |- _ => ext_case Hterm
           end;
    destruct (dict_get "services" d); cbn;
    (do 2 eexists; split; reflexivity).
Qed.

(** ** More on the lifespan *)





(** ** What the application runs at startup and shutdown *)




End Properties.

(** ** SPA fallback *)

(** C7.  The fallback answers 404 for a path prefixed [api/], [docs] or
    [redoc]; for any other path it returns [static/index.html] when that
    file exists and answers 404 when it does not. *)
Theorem serve_spa_fallback (exists_ : string -> bool) (full_path : string) :
  (reserved full_path ->
   serve_spa exists_ full_path = HTTPException 404 "Not found")
  /\ (~ reserved full_path ->
      exists_ "static/index.html" = true ->
      serve_spa exists_ full_path = FileResponse "static/index.html")
  /\ (~ reserved full_path ->
      exists_ "static/index.html" = false ->
      serve_spa exists_ full_path = HTTPException 404 "Frontend not available").
Proof.
  assert (Hres : startswith full_path "api/" || startswith full_path "docs"
                 || startswith full_path "redoc" = true <-> reserved full_path).
  { unfold reserved. rewrite !orb_true_iff, !startswith_has_prefix. tauto. }
  unfold serve_spa.
  destruct (startswith full_path "api/" || startswith full_path "docs"
            || startswith full_path "redoc").
  - split; [intros _; reflexivity|].
    split; intros H; exfalso; apply H, Hres; reflexivity.
  - split; [intros H; apply Hres in H; discriminate|].
    split; intros _ ->; reflexivity.
Qed.

(** ** Middleware order *)

Import Pipeline.

(** C1 (amended).  Every registration puts the new middleware around the
    stack built so far, so a request goes through the stages in the reverse
    of the order in which main.py registers them: admission control is
    outermost of the four named stages and the error boundary innermost,
    followed by the enterprise, trusted-host (unless DEBUG) and CORS
    middleware before route dispatch. *)
Theorem middleware_stack_order (request : Type) (DEBUG : bool) (r : request) :
  build_middleware_stack request (app DEBUG) r =
    [ Through ServerErrorMiddleware;
      admission_control;
      multi_tenant_resolution;
      security_enhancement;
      error_boundary;
      Through EnterpriseMiddleware ]
    ++ (if DEBUG then [] else [Through TrustedHostMiddleware])
    ++ [ Through CORSMiddleware; Through ExceptionMiddleware; RouteDispatch ]
  /\ filter is_canonical_stage (build_middleware_stack request (app DEBUG) r) =
       [ admission_control; multi_tenant_resolution; security_enhancement;
         error_boundary; RouteDispatch ].
Proof.
  destruct DEBUG; split; reflexivity.
Qed.

(** C1 as stated fails: with DEBUG on, the named stages are not entered in
    the canonical order. *)
Lemma canonical_order_not_respected :
  filter is_canonical_stage (build_middleware_stack unit (app true) tt)
  <> canonical_order.
Proof.
  cbv. discriminate.
Qed.

(* ================================================================== *)
(** * Concrete runs *)
(* ================================================================== *)

Import Script.

(** A script that never says [Hung] gives collaborators that always
    complete. *)
Lemma scripted_terminating (script : Op -> ending) :
  (forall op, script op <> Hung) -> terminating (ext script).
Proof.
  intros H op w. unfold ext. specialize (H op).
  destruct (script op); [discriminate | discriminate | contradiction].
Qed.

(** ** Where the claims as stated fail *)

(** C2 as stated fails: when reading the CPU load raises, the handler's
    body has neither a marker in place of the CPU field nor any of the
    fields that could be read; and a GET of [/metrics] is taken by the
    catch-all route, which without a frontend answers 404. *)
Lemma metrics_cpu_failure_drops_snapshot :
  (exists body st',
      metrics (ext cpu_read_fails) time_time utcnow_isoformat full_env started
      = (Ok body, st')
      /\ keys body = ["error"; "message"; "timestamp"]
      /\ dict_get "system_cpu_percent" body = None
      /\ dict_get "system_memory_total" body = None)
  /\ Routing.dispatch Scenario.serves false false "/metrics"
     = Some (Routing.to_serve_spa "metrics")
  /\ serve_spa (fun _ => false) "metrics"
     = HTTPException 404 "Frontend not available".
Proof.
  split; [do 2 eexists; repeat split | split; reflexivity].
Qed.

(** C8 as stated fails: the handler's payload has a fourth field; and a GET
    of [/health/simple] is taken by the catch-all route, which without a
    frontend answers 404. *)
Lemma simple_health_check_has_railway :
  (exists body st',
      simple_health_check utcnow_isoformat full_env fresh = (Ok body, st')
      /\ keys body = ["status"; "environment"; "timestamp"; "railway"]
      /\ keys body <> ["status"; "environment"; "timestamp"])
  /\ Routing.dispatch Scenario.serves false false "/health/simple"
     = Some (Routing.to_serve_spa "health/simple")
  /\ serve_spa (fun _ => false) "health/simple"
     = HTTPException 404 "Frontend not available".
Proof.
  split; [|split; reflexivity].
  do 2 eexists. split; [reflexivity|]. split; [reflexivity | discriminate].
Qed.


Lemma metrics_failure_replaces_snapshot_witness :
  terminating (ext cpu_read_fails)
  /\ exists ts st',
       metrics (ext cpu_read_fails) time_time utcnow_isoformat full_env started
       = (Ok [ ("error", VStr "metrics_collection_failed");
               ("message", VStr "cannot read /proc/stat");
               ("timestamp", VStr ts) ], st').
Proof.
  assert (H : terminating (ext cpu_read_fails)).
  { intros op w. destruct op; discriminate. }
  split; [exact H|].
  destruct (metrics_failure_replaces_snapshot (ext cpu_read_fails) time_time
              utcnow_isoformat full_env started H)
    as (body & st' & evs & Hrun & Htr & _ & Hfail).
  destruct (Hfail psutil_cpu_percent (PyError "OSError" "cannot read /proc/stat"))
    as (ts & Hbody).
  - cbn in Hrun. injection Hrun as _ <-. cbn in Htr.
    subst evs. left. reflexivity.
  - exists ts, st'. rewrite Hrun, Hbody. reflexivity.
Defined.

Lemma serve_spa_fallback_witness :
  reserved "api/v1/chat"
  /\ serve_spa (fun _ => true) "api/v1/chat" = HTTPException 404 "Not found".
Proof.
  assert (H : reserved "api/v1/chat").
  { left. exists "v1/chat". reflexivity. }
  split; [exact H|].
  apply (proj1 (serve_spa_fallback (fun _ => true) "api/v1/chat")). exact H.
Defined.

Lemma simple_health_check_fields_witness :
  settings full_env "ENVIRONMENT" = Some (VStr "production")
  /\ settings full_env "RAILWAY_ENVIRONMENT" = Some VNone
  /\ exists ts st',
       simple_health_check utcnow_isoformat full_env fresh =
         (Ok [ ("status", VStr "healthy");
               ("environment", VStr "production");
               ("timestamp", VStr ts);
               ("railway", VBool (truthy VNone)) ], st')
       /\ trace st' = trace fresh.
Proof.
  split; [reflexivity|]. split; [reflexivity|].
  apply (simple_health_check_fields utcnow_isoformat full_env fresh
           (VStr "production") VNone); reflexivity.
Defined.


Lemma metrics_unset_start_time_witness :
  terminating (ext all_fine)
  /\ app_start_time fresh = None
  /\ exists e ts st',
       metrics (ext all_fine) time_time utcnow_isoformat full_env fresh =
         (Ok [ ("error", VStr "metrics_collection_failed");
               ("message", VStr (str e));
               ("timestamp", VStr ts) ], st').
Proof.
  assert (H : terminating (ext all_fine)).
  { intros op w. destruct op; discriminate. }
  split; [exact H|]. split; [reflexivity|].
  destruct (metrics_unset_start_time (ext all_fine) time_time utcnow_isoformat
              full_env fresh H eq_refl)
    as ((e & ts & st' & Hrun & _) & _).
  exists e, ts, st'. exact Hrun.
Defined.

(* ================================================================== *)
(** * Root endpoint and route table *)
(* ================================================================== *)

(** X14.  With a frontend on disk, the root and every path the fallback does not
    reserve serve the same entry document; without one, the root still
    answers with the API description while every such path is a 404. *)
Theorem root_and_fallback (exists_ : string -> bool) (full_path : string) :
  ~ reserved full_path ->
  (exists_ "static/index.html" = true ->
   root exists_ = RootFile "static/index.html"
   /\ serve_spa exists_ full_path = FileResponse "static/index.html")
  /\ (exists_ "static/index.html" = false ->
      root exists_ = RootInfo api_info
      /\ serve_spa exists_ full_path = HTTPException 404 "Frontend not available").
Proof.
  intros Hfree.
  assert (Hno : startswith full_path "api/" || startswith full_path "docs"
                || startswith full_path "redoc" = false).
  { destruct (startswith full_path "api/" || startswith full_path "docs"
              || startswith full_path "redoc") eqn:E; [|reflexivity].
    exfalso. apply Hfree. unfold reserved.
    rewrite !orb_true_iff, !startswith_has_prefix in E. tauto. }
  unfold root, serve_spa. rewrite Hno.
  split; intros ->; split; reflexivity.
Qed.

Import Routing.

Lemma first_match_app (serves : string -> string -> bool)
      (rs rs' : list route) (path : string) :
  first_match serves (rs ++ rs') path =
    match first_match serves rs path with
    | Some t => Some t
    | None => first_match serves rs' path
    end.
Proof.
  induction rs as [|r rs IH]; cbn; [reflexivity|].
  destruct (matches serves r path); [reflexivity | exact IH].
Qed.

Lemma first_match_In (serves : string -> string -> bool)
      (rs : list route) (path : string) (t : target) :
  first_match serves rs path = Some t ->
  exists r, In r rs /\ matches serves r path = Some t.
Proof.
  induction rs as [|r rs IH]; cbn; [discriminate|].
  destruct (matches serves r path) as [t'|] eqn:E.
  - intros [= ->]. exists r. auto.
  - intros H. destruct (IH H) as (r' & Hin & Hm). exists r'. auto.
Qed.

Lemma strip_append (p s rest : string) :
  strip p s = Some rest <-> s = p +++ rest.
Proof.
  revert s. induction p as [|c p IH]; intros s; cbn.
  - split; [intros [= ->]; reflexivity | intros ->; reflexivity].
  - destruct s as [|d s]; [split; discriminate|].
    destruct (Ascii.eqb_spec c d) as [->|Hne].
    + rewrite IH. split; [intros ->; reflexivity | intros [= ->]; reflexivity].
    + split; [discriminate | intros [= H _]; congruence].
Qed.

(** The routes before the catch-all, and those after it. *)
Lemma routes_split (DEBUG static_dir_exists : bool) :
  exists before,
    routes DEBUG static_dir_exists =
      before ++ CatchAll
             :: [ Exact "/health" to_health_check;
                  Exact "/health/simple" to_simple_health_check;
                  Exact "/metrics" to_metrics ]
    /\ forall serves path t r,
         In r before -> matches serves r path = Some t ->
         t <> to_health_check /\ t <> to_simple_health_check /\ t <> to_metrics.
Proof.
  exists (setup DEBUG
          ++ [ Include "/api/v1" "api_router";
               Include "/api/v1" "super_admin_router";
               Include "/api/v1" "websocket_router";
               Include "/api/v1" "health_router";
               Include "/api/v1" "enterprise_ops_router" ]
          ++ (if static_dir_exists then [Mount "/static"] else [])
          ++ [Exact "/" to_root]).
  split; [destruct DEBUG, static_dir_exists; reflexivity|].
  intros serves path t r Hin Hm.
  destruct DEBUG, static_dir_exists; cbn in Hin;
    repeat (destruct Hin as [<-|Hin];
            [ cbn in Hm;
              repeat match type of Hm with
                     | context [if ?b then _ else _] => destruct b
                     | context [match ?o with Some _ => _ | None => _ end] =>
                         destruct o
                     end;
              try discriminate; injection Hm as <-; repeat split; discriminate
            | ]);
    contradiction.
Qed.

(** X15.  The three handlers registered after the catch-all route are never
    reached: whatever the path, the debug flag, the static directory and
    the included routers, no GET request is dispatched to [health_check],
    [simple_health_check] or [metrics], because the catch-all, registered
    before them, matches every path they match. *)
Theorem handlers_behind_catch_all_unreachable
        (serves : string -> string -> bool) (DEBUG static_dir_exists : bool)
        (path : string) :
  dispatch serves DEBUG static_dir_exists path <> Some to_health_check
  /\ dispatch serves DEBUG static_dir_exists path <> Some to_simple_health_check
  /\ dispatch serves DEBUG static_dir_exists path <> Some to_metrics.
Proof.
  destruct (routes_split DEBUG static_dir_exists) as (before & Heq & Hbefore).
  unfold dispatch. rewrite Heq, first_match_app.
  destruct (first_match serves before path) as [t|] eqn:E.
  - destruct (first_match_In _ _ _ _ E) as (r & Hin & Hm).
    destruct (Hbefore serves path t r Hin Hm) as (H1 & H2 & H3).
    repeat split; congruence.
  - unfold first_match, matches.
    destruct (strip "/" path) as [full_path|] eqn:Es.
    + repeat split; discriminate.
    + destruct (String.eqb_spec path "/health") as [->|_];
        [cbn in Es; discriminate|].
      destruct (String.eqb_spec path "/health/simple") as [->|_];
        [cbn in Es; discriminate|].
      destruct (String.eqb_spec path "/metrics") as [->|_];
        [cbn in Es; discriminate|].
      repeat split; discriminate.
Qed.

Lemma to_serve_spa_from_catch_all
      (serves : string -> string -> bool) (DEBUG static_dir_exists : bool)
      (path full_path : string) :
  dispatch serves DEBUG static_dir_exists path = Some (to_serve_spa full_path) ->
  path = "/" +++ full_path.
Proof.
  intros H. apply first_match_In in H. destruct H as (r & Hin & Hm).
  apply strip_append.
  destruct DEBUG, static_dir_exists; cbn in Hin;
    repeat (destruct Hin as [<-|Hin];
            [ cbn in Hm;
              repeat match type of Hm with
                     | context [if ?b then _ else _] => destruct b
                     | context [match ?o with Some _ => _ | None => _ end] =>
                         destruct o eqn:?
                     end;
              try discriminate; injection Hm as <-; assumption
            | ]);
    contradiction.
Qed.

(** X16.  A request under [/api/], [/docs] or [/redoc] that no earlier route
    takes falls through to the fallback, which answers 404 [Not found] and
    never the frontend's entry document. *)
Theorem unserved_reserved_path_is_404
        (serves : string -> string -> bool) (DEBUG static_dir_exists : bool)
        (exists_ : string -> bool) (path full_path : string) :
  dispatch serves DEBUG static_dir_exists path = Some (to_serve_spa full_path) ->
  has_prefix "/api/" path \/ has_prefix "/docs" path \/ has_prefix "/redoc" path ->
  serve_spa exists_ full_path = HTTPException 404 "Not found".
Proof.
  intros Hd Hp. apply to_serve_spa_from_catch_all in Hd. subst path.
  assert (Hres : startswith full_path "api/" || startswith full_path "docs"
                 || startswith full_path "redoc" = true).
  { rewrite !orb_true_iff, !startswith_has_prefix.
    destruct Hp as [[rest H]|[[rest H]|[rest H]]]; cbn in H;
      injection H as H; [left; left | left; right | right]; exists rest; exact H. }
  unfold serve_spa. rewrite Hres. reflexivity.
Qed.

(* ================================================================== *)
(** * Further concrete runs *)
(* ================================================================== *)


Lemma metrics_failure_is_last_and_logged_witness :
  terminating (Script.ext Scenario.memory_read_fails)
  /\ exists body st' evs,
       metrics (Script.ext Scenario.memory_read_fails) time_time
         utcnow_isoformat full_env started = (Ok body, st')
       /\ trace st' = trace started ++ evs.
Proof.
  assert (H : terminating (Script.ext Scenario.memory_read_fails)).
  { intros op w. destruct op; discriminate. }
  split; [exact H|].
  destruct (metrics_failure_is_last_and_logged
              (Script.ext Scenario.memory_read_fails) time_time
              utcnow_isoformat full_env started H)
    as (body & st' & evs & Hrun & Htr & _).
  exists body, st', evs. split; assumption.
Defined.

Lemma metrics_zero_disk_witness :
  exists ts st' evs,
    metrics (Scenario.ext Scenario.empty_disk all_fine) time_time
      utcnow_isoformat full_env started =
      (Ok [ ("error", VStr "metrics_collection_failed");
            ("message", VStr "division by zero");
            ("timestamp", VStr ts) ], st')
    /\ trace st' = trace started ++ evs
    /\ calls process_cpu_percent evs = 0%nat
    /\ calls process_num_threads evs = 0%nat.
Proof.
  apply (metrics_zero_disk (Scenario.ext Scenario.empty_disk all_fine)
           time_time utcnow_isoformat full_env started).
  - intros op _ w. eexists _, _. reflexivity.
  - intros w d w' H. injection H as <- _. reflexivity.
Defined.

Lemma health_report_shape_witness :
  terminating (Script.ext database_down)
  /\ settings full_env "ENVIRONMENT" = Some (VStr "production")
  /\ exists body st',
       health_check (Script.ext database_down) time_time utcnow_isoformat
         full_env started = (Ok body, st')
       /\ keys body = report_fields ++ ["database"; "services"].
Proof.
  assert (H : terminating (Script.ext database_down)).
  { intros op w. destruct op; discriminate. }
  split; [exact H|]. split; [reflexivity|].
  destruct (health_report_shape (Script.ext database_down) time_time
              utcnow_isoformat full_env started (VStr "production") H eq_refl)
    as (body & st' & evs & Hrun & _ & Hk & _).
  exists body, st'. split; assumption.
Defined.

Lemma health_uptime_started_witness :
  terminating (Script.ext all_fine)
  /\ settings full_env "ENVIRONMENT" = Some (VStr "production")
  /\ app_start_time started = Some 1699999000%Q
  /\ exists body st',
       health_check (Script.ext all_fine) time_time utcnow_isoformat
         full_env started = (Ok body, st')
       /\ dict_get "uptime_seconds" body =
            Some (VFloat (1700000000 - 1699999000)%Q).
Proof.
  assert (H : terminating (Script.ext all_fine)).
  { intros op w. destruct op; discriminate. }
  split; [exact H|]. split; [reflexivity|]. split; [reflexivity|].
  exact (health_uptime_started (Script.ext all_fine) time_time
           utcnow_isoformat full_env started 1699999000%Q (VStr "production")
           H eq_refl eq_refl).
Defined.

Lemma health_services_entry_witness :
  terminating (Scenario.ext Scenario.no_services all_fine)
  /\ exists body st',
       health_check (Scenario.ext Scenario.no_services all_fine) time_time
         utcnow_isoformat full_env started = (Ok body, st')
       /\ dict_get "services" body = Some (VStr "error: 'services'").
Proof.
  assert (H : terminating (Scenario.ext Scenario.no_services all_fine)).
  { intros op w. destruct op; discriminate. }
  split; [exact H|].
  apply (health_services_entry (Scenario.ext Scenario.no_services all_fine)
           time_time utcnow_isoformat full_env started (VStr "production")
           [("overall", VStr "ok")] H eq_refl eq_refl).
  intros w. eexists. reflexivity.
Defined.



Lemma root_and_fallback_witness :
  ~ reserved "chat/42"
  /\ root (fun _ => false) = RootInfo api_info
  /\ serve_spa (fun _ => false) "chat/42"
     = HTTPException 404 "Frontend not available".
Proof.
  assert (H : ~ reserved "chat/42").
  { intros [H|[H|H]]; apply startswith_has_prefix in H; discriminate. }
  split; [exact H|].
  apply (proj2 (root_and_fallback (fun _ => false) "chat/42" H)). reflexivity.
Defined.

Lemma unserved_reserved_path_is_404_witness :
  dispatch Scenario.serves false true "/docs" = Some (to_serve_spa "docs")
  /\ (has_prefix "/api/" "/docs" \/ has_prefix "/docs" "/docs"
      \/ has_prefix "/redoc" "/docs")
  /\ serve_spa (fun _ => true) "docs" = HTTPException 404 "Not found".
Proof.
  assert (Hp : has_prefix "/api/" "/docs" \/ has_prefix "/docs" "/docs"
               \/ has_prefix "/redoc" "/docs").
  { right. left. exists "". reflexivity. }
  split; [reflexivity|]. split; [exact Hp|].
  exact (unserved_reserved_path_is_404 Scenario.serves false true
           (fun _ => true) "/docs" "docs" eq_refl Hp).
Defined.

(* ================================================================== *)
(** * Requests for the health and metrics paths *)
(* ================================================================== *)

(** C6 (defect in the route table).  A GET of [/health] never reaches
    [health_check]: whatever the debug flag, the static directory and the
    included routers, it is dispatched to the catch-all route registered
    before it, and [serve_spa] answers with the frontend's entry document
    or, without a frontend, with a 404; no health report is produced. *)
Theorem get_health_taken_by_fallback
        (serves : string -> string -> bool) (DEBUG static_dir_exists : bool)
        (exists_ : string -> bool) :
  dispatch serves DEBUG static_dir_exists "/health" = Some (to_serve_spa "health")
  /\ serve_spa exists_ "health" =
       (if exists_ "static/index.html" then FileResponse "static/index.html"
        else HTTPException 404 "Frontend not available").
Proof.
  split; [destruct DEBUG, static_dir_exists; reflexivity | reflexivity].
Qed.

(** C10 (defect in the route table).  A GET of [/metrics] never reaches
    [metrics], with or without a start time: it is dispatched to the
    catch-all route registered before it, and [serve_spa] answers with the
    frontend's entry document or, without a frontend, with a 404; the same
    holds of [/health], so that neither the error payload nor an uptime of
    0 is ever sent. *)
Theorem get_metrics_taken_by_fallback
        (serves : string -> string -> bool) (DEBUG static_dir_exists : bool)
        (exists_ : string -> bool) :
  dispatch serves DEBUG static_dir_exists "/metrics" = Some (to_serve_spa "metrics")
  /\ serve_spa exists_ "metrics" =
       (if exists_ "static/index.html" then FileResponse "static/index.html"
        else HTTPException 404 "Frontend not available")
  /\ dispatch serves DEBUG static_dir_exists "/health" <> Some to_health_check
  /\ dispatch serves DEBUG static_dir_exists "/metrics" <> Some to_metrics.
Proof.
  repeat split; destruct DEBUG, static_dir_exists; try reflexivity; discriminate.
Qed.





